(** * chainode SDK: the block ingestion and proposal pipeline

    A shallow embedding of [src/sdk/index.js] (the SDK class: role gate,
    message dispatch, block proposal, block ingestion, start, shutdown) and
    of [src/lib/services/errors.js], together with [JSON.stringify], to
    which the SDK's [serialize] delegates.

    Conventions.
    - A method of the SDK class is a computation in the monad [M]: it takes
      the object ([this]) and gives back the object after the call together
      with the way the call completed (a returned value, or a thrown error;
      for an [async] method: a resolved or a rejected promise).
    - [start] and [startWebConsole] only wire the collaborators up; the
      object a theorem starts from is the object as they leave it.
    - Modules that the class requires but that are not part of the sources
      ([lib/block], [lib/database], [lib/kafka], [lib/errors], the web
      console) are the fields of the record [Collaborators]: every theorem
      about the class holds for all of them.
    - The built-in [JSON.parse], to which [deserialize] delegates, is a
      field of the record [Builtins]: every theorem about the message
      handler holds whatever it answers.
    - The field [calls] of the object is ghost state: the trace of the calls
      the class made to its collaborators. *)

From Stdlib Require Import Bool List ZArith Lia Ascii String.
From Stdlib Require Import Decimal DecimalFacts DecimalPos DecimalN DecimalZ DecimalString.
Import ListNotations.

#[local] Open Scope list_scope.
#[local] Open Scope string_scope.

(* ================================================================== *)
(** * JavaScript values and [JSON.stringify]                           *)
(* ================================================================== *)

Module JSON.

(** A JavaScript number is an IEEE double.  A finite double other than
    zero is held as what Number::toString prints of it: its sign and the
    integers [s] and [n] of the shortest decimal numeral that reads back as
    the double.  With [k] the number of digits of [s] (the last of which is
    not 0), the numeral's value is [s * 10 ^ (n - k)]. *)
Inductive number : Type :=
| NaN
| Infinity (negative : bool)
| Zero (negative : bool)
| Finite (negative : bool) (s : positive) (n : Z).

Bind Scope Z_scope with number.

(** Drops the zeros that end the decimal digits of [z]. *)
Fixpoint strip_zeros (fuel : nat) (z : Z) : Z :=
  match fuel with
  | O => z
  | S fuel' => if (z mod 10 =? 0)%Z then strip_zeros fuel' (z / 10) else z
  end.

Definition digits (s : positive) : string := NilEmpty.string_of_uint (Pos.to_uint s).

Definition nb_digits (z : Z) : Z := Z.of_nat (String.length (digits (Z.to_pos z))).

(** The double nearest to a positive integer, ties going to the even
    mantissa of 53 bits; [None] when it is beyond the largest double. *)
Definition nearest_double (z : Z) : option Z :=
  let bits := (Z.log2 z + 1)%Z in
  if (bits <=? 53)%Z then Some z
  else
    let shift := (bits - 53)%Z in
    let q := Z.shiftr z shift in
    let r := (z - Z.shiftl q shift)%Z in
    let half := Z.shiftl 1 (shift - 1) in
    let m := if ((half <? r) || ((r =? half) && Z.odd q))%Z then (q + 1)%Z else q in
    let d := Z.shiftl m shift in
    if (2 ^ 1024 <=? d)%Z then None else Some d.

(** The shortest numeral of the double [d], an integer of [n] digits: the
    fewest digits [s], [k] of them, such that [d] is the double nearest to
    [s * 10 ^ (n - k)]; of two such numerals, the one closer to [d]. *)
Fixpoint shortest (fuel : nat) (k : Z) (d n : Z) : Z :=
  match fuel with
  | O => d
  | S fuel' =>
      let scale := (10 ^ (n - k))%Z in
      let below := (d / scale * scale)%Z in
      let above := (below + scale)%Z in
      let reads_back (c : Z) :=
        match nearest_double c with
        | Some d' => (d' =? d)%Z
        | None => false
        end in
      match reads_back below, reads_back above with
      | true, true =>
          if (d - below <? above - d)%Z then below
          else if (above - d <? d - below)%Z then above
          else if Z.even (d / scale) then below else above
      | true, false => below
      | false, true => above
      | false, false => shortest fuel' (k + 1)%Z d n
      end
  end.

Definition magnitude (negative : bool) (p : positive) : number :=
  match nearest_double (Zpos p) with
  | None => Infinity negative
  | Some d =>
      let c := shortest (Z.to_nat (nb_digits d)) 1 d (nb_digits d) in
      Finite negative (Z.to_pos (strip_zeros (Z.to_nat (nb_digits c)) c)) (nb_digits c)
  end.

(** The number that an integer literal denotes: the double nearest to the
    integer.  An integer below 2^53 in absolute value is a double, and its
    own digits are its shortest numeral. *)
Definition number_of_Z (z : Z) : number :=
  match z with
  | Z0 => Zero false
  | Zpos p => magnitude false p
  | Zneg p => magnitude true p
  end.

Coercion number_of_Z : Z >-> number.

(** The integer a number is, when it is one. *)
Definition number_to_Z (x : number) : option Z :=
  match x with
  | Zero _ => Some 0%Z
  | Finite negative s n =>
      let k := nb_digits (Zpos s) in
      if (k <=? n)%Z
      then Some ((if negative then Z.opp else fun z => z) (Zpos s * 10 ^ (n - k))%Z)
      else None
  | _ => None
  end.

(** SameValue on numbers. *)
Definition number_eqb (x y : number) : bool :=
  match x, y with
  | NaN, NaN => true
  | Infinity a, Infinity b => Bool.eqb a b
  | Zero a, Zero b => Bool.eqb a b
  | Finite a s n, Finite b s' n' => Bool.eqb a b && (s =? s')%positive && (n =? n')%Z
  | _, _ => false
  end.

(** A string holds its text in UTF-8, a byte per [ascii], the way a string
    literal of this file does.  A surrogate code unit that is not half of a
    pair has no UTF-8 encoding; it is held on three bytes by the same rule
    (ED, then A0 to BF, then 80 to BF).

    The values: null, booleans, numbers, strings, arrays and plain objects.
    An object is the list of its own properties in enumeration order. *)
Unset Elimination Schemes.
Inductive json : Type :=
| JNull
| JBool (b : bool)
| JNum (x : number)
| JStr (s : string)
| JArr (items : list json)
| JObj (members : list (string * json)).
Set Elimination Schemes.

(** Induction principle that reaches through the two containers. *)
Fixpoint json_ind (P : json -> Prop)
    (Hnull : P JNull)
    (Hbool : forall b, P (JBool b))
    (Hnum : forall x, P (JNum x))
    (Hstr : forall s, P (JStr s))
    (Harr : forall items, Forall P items -> P (JArr items))
    (Hobj : forall members, Forall (fun kv => P (snd kv)) members -> P (JObj members))
    (j : json) {struct j} : P j :=
  let rec := json_ind P Hnull Hbool Hnum Hstr Harr Hobj in
  match j with
  | JNull => Hnull
  | JBool b => Hbool b
  | JNum x => Hnum x
  | JStr s => Hstr s
  | JArr items =>
      Harr items
        ((fix go (l : list json) : Forall P l :=
            match l with
            | [] => Forall_nil P
            | x :: l' => Forall_cons x (rec x) (go l')
            end) items)
  | JObj members =>
      Hobj members
        ((fix go (l : list (string * json)) : Forall (fun kv => P (snd kv)) l :=
            match l with
            | [] => Forall_nil _
            | kv :: l' => Forall_cons kv (rec (snd kv)) (go l')
            end) members)
  end.

(** ** Characters *)

Definition dquote : ascii := "034".
Definition backslash : ascii := "092".
Definition backspace : ascii := "008".
Definition tab : ascii := "009".
Definition newline : ascii := "010".
Definition formfeed : ascii := "012".
Definition creturn : ascii := "013".

Definition is_control (c : ascii) : bool := (N_of_ascii c <? 32)%N.

Definition hex_digit (n : N) : ascii :=
  match n with
  | 0 => "0" | 1 => "1" | 2 => "2" | 3 => "3" | 4 => "4" | 5 => "5"
  | 6 => "6" | 7 => "7" | 8 => "8" | 9 => "9" | 10 => "a" | 11 => "b"
  | 12 => "c" | 13 => "d" | 14 => "e" | _ => "f"
  end%N%char.

(** UnicodeEscape: [\u] and the four hexadecimal digits of the code unit. *)
Definition unicode_escape (n : N) : string :=
  String backslash
    (String "u"
      (String (hex_digit (n / 4096))
        (String (hex_digit (n / 256 mod 16))
          (String (hex_digit (n / 16 mod 16)) (String (hex_digit (n mod 16)) ""))))).

(** The code unit that the three bytes hold, when they hold a surrogate. *)
Definition surrogate (c1 c2 c3 : ascii) : option N :=
  let b1 := N_of_ascii c1 in
  let b2 := N_of_ascii c2 in
  let b3 := N_of_ascii c3 in
  if ((b1 =? 237) && (160 <=? b2) && (b2 <=? 191) && (128 <=? b3) && (b3 <=? 191))%N
  then Some (53248 + (b2 - 128) * 64 + (b3 - 128))%N
  else None.

(** ** Number::toString *)

Fixpoint zeros (m : nat) : string :=
  match m with
  | O => ""
  | S m' => String "0" (zeros m')
  end.

(** The numeral of a positive finite number: plain digits when the
    decimal point falls within 21 digits, a leading [0.] down to 10^-7,
    the exponent notation otherwise. *)
Definition numeral (s : positive) (n : Z) : string :=
  let ds := digits s in
  let k := Z.of_nat (String.length ds) in
  if ((k <=? n) && (n <=? 21))%Z then
    ds ++ zeros (Z.to_nat (n - k))
  else if ((0 <? n) && (n <=? 21))%Z then
    substring 0 (Z.to_nat n) ds ++ "." ++ substring (Z.to_nat n) (Z.to_nat (k - n)) ds
  else if ((-6 <? n) && (n <=? 0))%Z then
    "0." ++ zeros (Z.to_nat (- n)) ++ ds
  else
    let e := (n - 1)%Z in
    let exponent :=
      (if (e <? 0)%Z then "-" else "+") ++ NilEmpty.string_of_uint (N.to_uint (Z.abs_N e)) in
    match ds with
    | "" => ""
    | String d "" => String d ("e" ++ exponent)
    | String d fraction => String d ("." ++ fraction ++ "e" ++ exponent)
    end.

Definition number_to_string (x : number) : string :=
  match x with
  | NaN => "NaN"
  | Infinity negative => (if negative then "-" else "") ++ "Infinity"
  | Zero _ => "0"
  | Finite negative s n => (if negative then "-" else "") ++ numeral s n
  end.

(** ** [JSON.stringify] *)

(** QuoteJSONString on a character below 128. *)
Definition escape_char (c : ascii) : string :=
  if (c =? dquote)%char then String backslash (String dquote "")
  else if (c =? backslash)%char then String backslash (String backslash "")
  else if (c =? backspace)%char then String backslash "b"
  else if (c =? formfeed)%char then String backslash "f"
  else if (c =? newline)%char then String backslash "n"
  else if (c =? creturn)%char then String backslash "r"
  else if (c =? tab)%char then String backslash "t"
  else if is_control c then unicode_escape (N_of_ascii c)
  else String c "".

(** QuoteJSONString: a surrogate that stands alone is written as its
    escape, every other character above 127 as it is. *)
Fixpoint escape (s : string) : string :=
  match s with
  | "" => ""
  | String c s' =>
      match s' with
      | String c2 (String c3 s3) =>
          match surrogate c c2 c3 with
          | Some code => unicode_escape code ++ escape s3
          | None => escape_char c ++ escape s'
          end
      | _ => escape_char c ++ escape s'
      end
  end.

Definition quote (s : string) : string :=
  String dquote (escape s ++ String dquote "").

Definition property (k : string) (text : string) : string :=
  quote k ++ String ":" text.

(** SerializeJSONProperty: a number that is not finite is printed [null]. *)
Fixpoint stringify (j : json) : string :=
  match j with
  | JNull => "null"
  | JBool true => "true"
  | JBool false => "false"
  | JNum NaN => "null"
  | JNum (Infinity _) => "null"
  | JNum x => number_to_string x
  | JStr s => quote s
  | JArr items => String "[" (concat "," (map stringify items) ++ "]")
  | JObj members =>
      String "{" (concat "," (map (fun '(k, v) => property k (stringify v)) members) ++ "}")
  end.

(** ** Equality of values *)

Fixpoint json_eqb (a b : json) : bool :=
  match a, b with
  | JNull, JNull => true
  | JBool x, JBool y => Bool.eqb x y
  | JNum x, JNum y => number_eqb x y
  | JStr x, JStr y => (x =? y)%string
  | JArr xs, JArr ys =>
      (fix all2 (l1 l2 : list json) : bool :=
         match l1, l2 with
         | [], [] => true
         | x :: l1', y :: l2' => json_eqb x y && all2 l1' l2'
         | _, _ => false
         end) xs ys
  | JObj xs, JObj ys =>
      (fix all2 (l1 l2 : list (string * json)) : bool :=
         match l1, l2 with
         | [], [] => true
         | (k, x) :: l1', (k', y) :: l2' => (k =? k')%string && json_eqb x y && all2 l1' l2'
         | _, _ => false
         end) xs ys
  | _, _ => false
  end.

End JSON.
Import JSON.

(* ================================================================== *)
(** * JavaScript values, errors and the logger                         *)
(* ================================================================== *)

(** A value the SDK handles: [undefined], or one of the values above. *)
Inductive value : Type :=
| Undefined
| J (j : json).

(** ToBoolean. *)
Definition truthy (v : value) : bool :=
  match v with
  | Undefined => false
  | J JNull => false
  | J (JBool b) => b
  | J (JNum NaN) => false
  | J (JNum (Zero _)) => false
  | J (JNum _) => true
  | J (JStr s) => negb (s =? "")
  | J (JArr _) => true
  | J (JObj _) => true
  end.

(** Thrown values. *)
Inductive exn : Type :=
| SyntaxError                    (* thrown by JSON.parse *)
| TypeError (what : string)      (* a property read on undefined or null *)
| Error (message : value).       (* Error(message) *)

(** How a call completes; for an async method, how its promise settles. *)
Inductive completion (A : Type) : Type :=
| Return (a : A)
| Throw (e : exn).
Arguments Return {A} a.
Arguments Throw {A} e.

(** [data.hash] where [data] is neither undefined nor null: the own
    property, undefined when there is none. *)
Definition own_hash (data : json) : value :=
  match data with
  | JObj members =>
      match find (fun kv => fst kv =? "hash") members with
      | Some (_, v) => J v
      | None => Undefined
      end
  | _ => Undefined
  end.

(** [data.hash]. *)
Definition dot_hash (data : json) : completion value :=
  match data with
  | JNull => Throw (TypeError "Cannot read property hash of null")
  | _ => Return (own_hash data)
  end.

(** The logger is a sink: an entry is a level and the arguments of the
    call; a template literal is kept as its parts. *)
Inductive level : Type := LInfo | LDebug | LError.

Inductive piece : Type :=
| Lit (s : string)
| Sub (v : value).

Inductive arg : Type :=
| Text (parts : list piece)
| Data (v : value)
| Stack (e : exn).

Record entry : Type := Entry { entry_level : level; entry_args : list arg }.

Definition Logger : Type := list entry.

(* ================================================================== *)
(** * src/lib/services/errors.js                                       *)
(* ================================================================== *)

Module Services.

(** The context handed to the handler: [ctx.broker.logger] and
    [ctx.action && ctx.action.name]. *)
Record Context : Type := {
  broker_logger : Logger;
  action_name : value
}.

(** Logs the action's name and the error's stack, then rethrows. *)
Definition errors (ctx : Context) (err : exn) : Context * completion unit :=
  ({| broker_logger :=
        (broker_logger ctx ++ [Entry LError [Data (action_name ctx); Stack err]])%list;
      action_name := action_name ctx |},
   Throw err).

End Services.

(* ================================================================== *)
(** * src/sdk/index.js                                                 *)
(* ================================================================== *)

Record Topics : Type := { pending : string }.
Record Kafka : Type := { topics : Topics }.

(** [this.configs], as far as the class reads it. *)
Record Configs : Type := {
  role : string;
  id : string;
  organization : string;
  kafka : Kafka
}.

(** A Kafka message, [{topic: topic, messages: data}]. *)
Record message : Type := { msg_topic : string; msg_messages : string }.

(** What a collaborator does with a call that takes a callback
    [function(err, res)]: it throws, or it returns [ret] and, when
    [later] is [(err, res)], invokes the callback with these on a later
    turn of the event loop. *)
Inductive outcome : Type :=
| Raises (e : exn)
| Returns (ret : value) (later : option (value * value)).

(** A callback handed to a collaborator and not invoked yet. *)
Inductive callback : Type :=
| Produced (err res : value)     (* the callback of [__produce] *)
| Closed (err res : value).      (* the callback of [stop] *)

(** Ghost: a call made to a collaborator. *)
Inductive call : Type :=
| CallIsValidBlock (data : json)
| CallGenerateNextBlock (org serializedData : string)
| CallAddBlock (data : json)
| CallSend (msgs : list message)
| CallConsumerClose
| CallWebappClose
| CallErrors (err : exn).

(** A handle on an external resource (consumer, producer, web console). *)
Inductive handle : Type := Handle.

Section SDK.

Context {Ledger : Type}.

(** The modules the class requires and that are not among the sources,
    with the arguments the class passes them. *)
Record Collaborators : Type := {
  (* lib/block *)
  isValidBlock : Logger -> json -> Logger * completion bool;
  generateNextBlock : string -> string -> completion json;
  (* lib/database: db.Ledger.AddBlock *)
  AddBlock : Ledger -> json -> Ledger * completion unit;
  (* lib/kafka: producer.send(msgs, cb), consumer.close(cb) *)
  send : list message -> outcome;
  consumer_close : outcome;
  (* web-console/backend/server: webapp.close() *)
  webapp_close : completion unit;
  (* lib/errors *)
  errors : Logger -> exn -> Logger * completion unit
}.

(** The object: the properties the constructor and [start] set, the
    callbacks in flight, and the ghost trace of collaborator calls. *)
Record SDK : Type := {
  configs : Configs;
  logger : Logger;
  db : option Ledger;
  consumer : option handle;
  producer : option handle;
  webapp : option handle;
  scheduled : list callback;
  calls : list call
}.

Definition set_logger (this : SDK) (l : Logger) : SDK :=
  {| configs := configs this; logger := l; db := db this; consumer := consumer this;
     producer := producer this; webapp := webapp this; scheduled := scheduled this;
     calls := calls this |}.

Definition set_db (this : SDK) (d : option Ledger) : SDK :=
  {| configs := configs this; logger := logger this; db := d; consumer := consumer this;
     producer := producer this; webapp := webapp this; scheduled := scheduled this;
     calls := calls this |}.

Definition set_scheduled (this : SDK) (cbs : list callback) : SDK :=
  {| configs := configs this; logger := logger this; db := db this; consumer := consumer this;
     producer := producer this; webapp := webapp this; scheduled := cbs;
     calls := calls this |}.

Definition set_calls (this : SDK) (cs : list call) : SDK :=
  {| configs := configs this; logger := logger this; db := db this; consumer := consumer this;
     producer := producer this; webapp := webapp this; scheduled := scheduled this;
     calls := cs |}.

(** ** The monad of methods *)

Definition M (A : Type) : Type := SDK -> SDK * completion A.

Definition ret {A} (a : A) : M A := fun this => (this, Return a).

Definition throw {A} (e : exn) : M A := fun this => (this, Throw e).

Definition bind {A B} (m : M A) (k : A -> M B) : M B :=
  fun this =>
    match m this with
    | (this', Return a) => k a this'
    | (this', Throw e) => (this', Throw e)
    end.

(** [try { body } catch (err) { handler }]: what the body did to the object
    before it threw stays done. *)
Definition try_catch {A} (body : M A) (handler : exn -> M A) : M A :=
  fun this =>
    match body this with
    | (this', Throw e) => handler e this'
    | r => r
    end.

Definition gets {A} (f : SDK -> A) : M A := fun this => (this, Return (f this)).

Definition lift {A} (c : completion A) : M A := fun this => (this, c).

Definition log (l : level) (args : list arg) : M unit :=
  fun this => (set_logger this (logger this ++ [Entry l args])%list, Return tt).

Definition note (c : call) : M unit :=
  fun this => (set_calls this (calls this ++ [c])%list, Return tt).

Definition schedule (later : option callback) : M unit :=
  fun this =>
    match later with
    | Some cb => (set_scheduled this (scheduled this ++ [cb])%list, Return tt)
    | None => (this, Return tt)
    end.

End SDK.

Arguments Collaborators : clear implicits.
Arguments SDK : clear implicits.
Arguments M : clear implicits.

Declare Scope sdk_scope.
Delimit Scope sdk_scope with sdk.
Notation "x <- m ;; k" := (bind m (fun x => k))
  (at level 61, m at next level, right associativity) : sdk_scope.
Notation "m ;; k" := (bind m (fun _ => k))
  (at level 61, right associativity) : sdk_scope.

#[local] Open Scope sdk_scope.

(** The built-in [JSON.parse] belongs to the platform, not to the
    repository: the value that a text denotes, [None] when the text is not
    JSON and the built-in throws a SyntaxError.  Every theorem about the
    class holds whatever this function is. *)
Record Builtins : Type := {
  JSON_parse : string -> option json
}.

Section Class.

Context {Ledger : Type} (lib : Collaborators Ledger) (js : Builtins).

(** ** Calls to the collaborators *)

(** [isValidBlock(this.logger, data)]. *)
Definition call_isValidBlock (data : json) : M Ledger bool :=
  note (CallIsValidBlock data) ;;
  fun this =>
    let (l, c) := isValidBlock lib (logger this) data in
    (set_logger this l, c).

(** [generateNextBlock(organization, serializedData)]. *)
Definition call_generateNextBlock (org serializedData : string) : M Ledger json :=
  note (CallGenerateNextBlock org serializedData) ;;
  lift (generateNextBlock lib org serializedData).

(** [await db.Ledger.AddBlock(data)], [db] being what [this.db] held. *)
Definition call_AddBlock (d : option Ledger) (data : json) : M Ledger unit :=
  match d with
  | None => throw (TypeError "Cannot read property Ledger of undefined")
  | Some ledger =>
      note (CallAddBlock data) ;;
      fun this =>
        let (ledger', c) := AddBlock lib ledger data in
        (set_db this (Some ledger'), c)
  end.

(** [errors(this.logger, err)]; when the handler returns, the method that
    caught the error returns undefined. *)
Definition call_errors (err : exn) : M Ledger value :=
  note (CallErrors err) ;;
  fun this =>
    let (l, c) := errors lib (logger this) err in
    (set_logger this l,
     match c with
     | Return _ => Return Undefined
     | Throw e => Throw e
     end).

(** ** Methods *)

(** Check the role. *)
Definition hasRole (this : SDK Ledger) (r : string) : bool :=
  role (configs this) =? r.

(** Stop Web Console: [this.webapp && this.webapp.close()]. *)
Definition stopWebConsole : M Ledger unit :=
  w <- gets webapp ;;
  match w with
  | Some _ => note CallWebappClose ;; lift (webapp_close lib)
  | None => ret tt
  end.

(** The callback of [stop]: [function(err, res) { return this; }]. *)
Definition on_closed (err res : value) : M Ledger unit := ret tt.

(** Stop peer broker: [return this.consumer.close(callback)]. *)
Definition stop : M Ledger value :=
  c <- gets consumer ;;
  match c with
  | None => throw (TypeError "Cannot read property close of undefined")
  | Some _ =>
      note CallConsumerClose ;;
      match consumer_close lib with
      | Raises e => throw e
      | Returns r later =>
          schedule (option_map (fun '(err, res) => Closed err res) later) ;;
          ret r
      end
  end.

(** Shutdown the peer broker and the web console:
    [await this.stopWebConsole().stop(); return this]. *)
Definition shutdown : M Ledger unit :=
  stopWebConsole ;;
  stop ;;
  ret tt.

(** The callback of [__produce]:
    [if (err) throw Error(err); self.logger.debug('Produced to', res); return self]. *)
Definition on_produced (err res : value) : M Ledger unit :=
  if truthy err then throw (Error err)
  else log LDebug [Text [Lit "Produced to"]; Data res].

(** Produce message to a kafka topic. *)
Definition __produce (topic data : string) : M Ledger value :=
  try_catch
    (let msg := {| msg_topic := topic; msg_messages := data |} in
     p <- gets producer ;;
     match p with
     | None => throw (TypeError "Cannot read property send of undefined")
     | Some _ =>
         note (CallSend [msg]) ;;
         match send lib [msg] with
         | Raises e => throw e
         | Returns r later =>
             schedule (option_map (fun '(err, res) => Produced err res) later) ;;
             ret r
         end
     end)
    (fun err => call_errors err).

(** Serialize data. *)
Definition serialize (data : json) : string := JSON.stringify data.

(** Deserialize data. *)
Definition deserialize (data : string) : completion json :=
  match JSON_parse js data with
  | Some v => Return v
  | None => Throw SyntaxError
  end.

(** The message logged for a block judged invalid:
    [(data && data.hash) ? `Skipping invalid block ${data.hash}.`
                         : 'Skipping an invalid block.']. *)
Definition invalidMsg (data : json) : list piece :=
  if truthy (J data) && truthy (own_hash data)
  then [Lit "Skipping invalid block "; Sub (own_hash data); Lit "."]
  else [Lit "Skipping an invalid block."].

(** Receive new blocks for adding to the ledger. *)
Definition addBlockToLedger (data : json) : M Ledger value :=
  try_catch
    (d <- gets db ;;
     valid <- call_isValidBlock data ;;
     if negb valid then
       log LError [Text (invalidMsg data)] ;;
       ret (J (JBool false))
     else
       received <- lift (dot_hash data) ;;
       log LDebug [Text [Lit "Received block "; Sub received; Lit "."]] ;;
       call_AddBlock d data ;;
       added <- lift (dot_hash data) ;;
       log LInfo [Text [Lit "Added new block "; Sub added; Lit "."]] ;;
       log LDebug [Text [Lit "Added new block"]; Data (J data)] ;;
       lift (dot_hash data))
    (fun err => call_errors err).

(** Select actions based on message and topic. *)
Definition onMessage (topic data : string) : M Ledger value :=
  tp <- gets (fun this => topics (kafka (configs this))) ;;
  deserialized <- lift (deserialize data) ;;
  if topic =? pending tp then
    this <- gets (fun this => this) ;;
    if hasRole this "peer" then addBlockToLedger deserialized
    else ret (J (JBool false))
  else throw (Error (J (JStr "Received message of an invalid topic"))).

(** Propose a new block. *)
Definition sendNewBlock (data : json) : M Ledger value :=
  try_catch
    (org <- gets (fun this => organization (configs this)) ;;
     let serializedData := serialize data in
     newblock <- call_generateNextBlock org serializedData ;;
     built <- lift (dot_hash newblock) ;;
     log LInfo [Text [Lit "Building a block for the transaction "; Sub built;
                      Lit " sended by organization "; Sub (J (JStr org)); Lit "."]] ;;
     log LDebug [Text [Lit "Built new block"]; Data (J newblock)] ;;
     topic <- gets (fun this => pending (topics (kafka (configs this)))) ;;
     let serialized := serialize newblock in
     __produce topic serialized ;;
     lift (dot_hash newblock))
    (fun err => call_errors err).

(** ** The event loop *)

Definition run_callback (cb : callback) : M Ledger unit :=
  match cb with
  | Produced err res => on_produced err res
  | Closed err res => on_closed err res
  end.

(** One later turn of the event loop: the collaborator invokes the oldest
    callback in flight.  No frame of the class is on the stack, so a
    [Throw] here is an exception nothing catches. *)
Definition turn : M Ledger unit :=
  fun this =>
    match scheduled this with
    | [] => (this, Return tt)
    | cb :: cbs => run_callback cb (set_scheduled this cbs)
    end.

End Class.

(** Unfolds the monad of methods. *)
Ltac run :=
  unfold addBlockToLedger, onMessage, sendNewBlock, __produce, shutdown, stop, stopWebConsole,
    call_isValidBlock, call_AddBlock, call_errors, call_generateNextBlock,
    try_catch, bind, gets, lift, log, note, schedule, ret, throw in *;
  cbn [logger calls db configs consumer producer webapp scheduled
       set_logger set_calls set_db set_scheduled fst snd] in *.

(* ================================================================== *)
(** * Collaborators modelled from the spec                             *)
(* ================================================================== *)

Module Spec.

(** Equality of two hashes (either may be missing). *)
Definition same_value (a b : value) : bool :=
  match a, b with
  | Undefined, Undefined => true
  | J x, J y => json_eqb x y
  | _, _ => false
  end.

Definition same_hash (a b : json) : bool := same_value (own_hash a) (own_hash b).

(** Modelled from the spec: the ledger store behind [db.Ledger.AddBlock]
    ([lib/database]) is not among the sources.  Section 3: an append-only
    ordered sequence of accepted blocks, keyed by hash. *)
Definition Ledger : Type := list json.

(** Modelled from the spec: the two answers of [append] (section 4.3). *)
Inductive AppendResult : Type := Appended | AlreadyPresent.

(** Modelled from the spec: a block with the same hash already exists. *)
Definition present (ledger : Ledger) (block : json) : bool :=
  existsb (same_hash block) ledger.

(** Modelled from the spec: [append] of section 4.3.  If a block with the
    same hash already exists, the append is a no-op and returns
    AlreadyPresent; otherwise the block is persisted, becomes the new head,
    and the answer is Appended. *)
Definition append (ledger : Ledger) (block : json) : Ledger * AppendResult :=
  if present ledger block then (ledger, AlreadyPresent)
  else ((ledger ++ [block])%list, Appended).

(** Number of blocks of the ledger that carry the hash of [block]. *)
Definition copies (ledger : Ledger) (block : json) : nat :=
  List.length (filter (same_hash block) ledger).



(** A property of an object, undefined when there is none. *)
Definition field (name : string) (data : json) : value :=
  match data with
  | JObj members =>
      match find (fun kv => fst kv =? name) members with
      | Some (_, v) => J v
      | None => Undefined
      end
  | _ => Undefined
  end.


(** Modelled from the spec: the persistence contract of section 6,
    [AddBlock(block) -> void], safe on a hash that exists. *)
Definition AddBlock (ledger : Ledger) (block : json) : Ledger * completion unit :=
  (fst (append ledger block), Return tt).

Section Codec.

(** The cryptographic digest is a primitive of the platform. *)
Variable digest : string -> string.

(** Modelled from the spec: the block codec ([lib/block]) is not among the
    sources.  Sections 3 and 4.1: the hash is the digest of the canonical
    concatenation of organization, payload, previousHash and timestamp. *)
Definition calculateHash (org payload prev : string) (timestamp : Z) : string :=
  digest (org ++ payload ++ prev ++ number_to_string timestamp).

(** Modelled from the spec: the five fields of a block (section 3). *)
Record Block : Type := {
  block_organization : string;
  block_payload : string;
  block_previousHash : string;
  block_timestamp : Z;
  block_hash : string
}.

(** Modelled from the spec: the block that section 4.1 returns for an
    organization that is not empty, given the hash of the caller's head and
    the reading of the clock: the four fields, and the hash computed from
    them.  The precondition is checked by [generate]. *)
Definition createBlock (org payload prev : string) (timestamp : Z) : Block :=
  {| block_organization := org;
     block_payload := payload;
     block_previousHash := prev;
     block_timestamp := timestamp;
     block_hash := calculateHash org payload prev timestamp |}.

(** Modelled from the spec: [createBlock(organization, payload)] of section
    4.1 for a caller whose head has the hash [prev] and whose clock reads
    [timestamp].  An empty organization is a precondition violation,
    signalled as an InvalidArgument error; there is no other failure. *)
Definition generate (org payload prev : string) (timestamp : Z) : completion Block :=
  if org =? "" then Throw (Error (J (JStr "InvalidArgument")))
  else Return (createBlock org payload prev timestamp).

(** The block as the object that travels on the topic. *)
Definition to_json (b : Block) : json :=
  JObj [("organization", JStr (block_organization b));
        ("payload", JStr (block_payload b));
        ("previousHash", JStr (block_previousHash b));
        ("timestamp", JNum (block_timestamp b));
        ("hash", JStr (block_hash b))].

(** The object read as a block: the five fields, each of its shape. *)
Definition of_json (data : json) : option Block :=
  match field "organization" data, field "payload" data, field "previousHash" data,
        field "timestamp" data, field "hash" data with
  | J (JStr org), J (JStr payload), J (JStr prev), J (JNum t), J (JStr h) =>
      match number_to_Z t with
      | Some timestamp =>
          Some {| block_organization := org; block_payload := payload;
                  block_previousHash := prev; block_timestamp := timestamp;
                  block_hash := h |}
      | None => None
      end
  | _, _, _, _, _ => None
  end.



(** Modelled from the spec: check 1 of section 4.2, structural
    completeness: all the fields are present and of the expected shape,
    and the organization is not empty. *)
Definition well_shaped (data : json) : option Block :=
  match of_json data with
  | Some b => if block_organization b =? "" then None else Some b
  | None => None
  end.

(** Modelled from the spec: check 2 of section 4.2, hash integrity: the
    digest recomputed over the block's own fields is its declared hash. *)
Definition hash_matches (b : Block) : bool :=
  block_hash b
  =? calculateHash (block_organization b) (block_payload b) (block_previousHash b)
       (block_timestamp b).



End Codec.

End Spec.

(* ================================================================== *)
(** * A concrete deployment, for the examples                          *)
(* ================================================================== *)

Module Demo.

(** A stand-in for the digest: any function of the text will do. *)
Definition digest (text : string) : string := "#" ++ text.

(** [lib/errors] is not among the sources.  In the examples the handler
    logs the error it is handed and throws it again. *)
Definition log_and_rethrow (l : Logger) (err : exn) : Logger * completion unit :=
  ((l ++ [Entry LError [Stack err]])%list, Throw err).

(** [lib/block] is not among the sources.  In the examples
    [generateNextBlock] is the codec of the spec on an empty ledger, at the
    first reading of the clock. *)
Definition next_block (org serializedData : string) : completion json :=
  match Spec.generate digest org serializedData "genesis" 1 with
  | Return b => Return (Spec.to_json b)
  | Throw e => Throw e
  end.

(** In the examples [isValidBlock] makes the checks of section 4.2 that can
    be made on what the class hands it, the logger and the block: checks 1
    and 2.  Check 3 reads the ledger, which the call does not pass. *)
Definition checks_on_block (l : Logger) (data : json) : Logger * completion bool :=
  (l,
   Return
     match Spec.well_shaped data with
     | Some b => Spec.hash_matches digest b
     | None => false
     end).

(** Every collaborator answers; the broker acknowledges each publish. *)
Definition lib : Collaborators Spec.Ledger := {|
  isValidBlock := checks_on_block;
  generateNextBlock := next_block;
  AddBlock := Spec.AddBlock;
  send := fun _ => Returns Undefined (Some (Undefined, J (JNum 0)));
  consumer_close := Returns Undefined (Some (Undefined, Undefined));
  webapp_close := Return tt;
  errors := log_and_rethrow
|}.

(** The broker reports a failed publish to the callback. *)
Definition lib_publish_fails : Collaborators Spec.Ledger := {|
  isValidBlock := checks_on_block;
  generateNextBlock := next_block;
  AddBlock := Spec.AddBlock;
  send := fun _ => Returns Undefined (Some (J (JStr "BrokerNotAvailable"), Undefined));
  consumer_close := Returns Undefined (Some (Undefined, Undefined));
  webapp_close := Return tt;
  errors := log_and_rethrow
|}.

(** Closing the web console throws. *)
Definition lib_console_fails : Collaborators Spec.Ledger := {|
  isValidBlock := checks_on_block;
  generateNextBlock := next_block;
  AddBlock := Spec.AddBlock;
  send := fun _ => Returns Undefined (Some (Undefined, J (JNum 0)));
  consumer_close := Returns Undefined (Some (Undefined, Undefined));
  webapp_close := Throw (Error (J (JStr "Server is not running")));
  errors := log_and_rethrow
|}.

Definition configs_of (r : string) : Configs := {|
  role := r;
  id := "node1";
  organization := "orgA";
  kafka := {| topics := {| pending := "blocks.pending" |} |}
|}.

(** A started node holding the ledger [ledger]. *)
Definition node (r : string) (ledger : Spec.Ledger) : SDK Spec.Ledger := {|
  configs := configs_of r;
  logger := [];
  db := Some ledger;
  consumer := Some Handle;
  producer := Some Handle;
  webapp := Some Handle;
  scheduled := [];
  calls := []
|}.

(** A started peer with one publish whose callback the broker has still to
    invoke. *)
Definition busy_node (ledger : Spec.Ledger) : SDK Spec.Ledger :=
  set_scheduled (node "peer" ledger) [Produced Undefined (J (JNum 0))].

Definition B1 : json := Spec.to_json (Spec.createBlock digest "orgA" "P1" "genesis" 1).

(** A well-hashed block whose parent is the genesis sentinel, not [B1]. *)
Definition B2 : json := Spec.to_json (Spec.createBlock digest "orgB" "P2" "genesis" 2).


(** [JSON.parse] on the texts of the examples: the text of the first block
    denotes the first block, the text [null] denotes null, and the text made
    of one opening brace denotes nothing.  The examples hand it no other
    text. *)
Definition parse_examples (text : string) : option json :=
  if text =? serialize B1 then Some B1
  else if text =? "null" then Some JNull
  else None.

Definition js : Builtins := {| JSON_parse := parse_examples |}.

End Demo.


(* ================================================================== *)
(** * Notions the properties are stated with                           *)
(* ================================================================== *)

Section Notions.

Context {Ledger : Type}.



(** The log holds no entry at the error level. *)
Definition no_error_logged (l : Logger) : bool :=
  forallb (fun e => match entry_level e with LError => false | _ => true end) l.

End Notions.


(* ================================================================== *)
(** * src/sdk/index.js: the constructor and [start]                    *)
(* ================================================================== *)

(** What [start] answers: [this], or undefined when it caught an error and
    the handler returned. *)
Inductive started : Type := ReturnedThis | ReturnedUndefined.

Section Boot.

Context {Ledger : Type}.

(** What [start] reads and calls besides the collaborators of the other
    methods.  The modules are not among the sources; each is handed the
    logger and may write to it.  [initKafka] and [backend] are handed the
    object too: they read it and register its methods, they assign none of
    its properties. *)
Record Boot : Type := {
  (* this.configs.webui.enabled *)
  webui_enabled : bool;
  (* lib/database/select: selectDb(this.configs.db, this.logger) *)
  selectDb : Logger -> Logger * completion Ledger;
  (* lib/kafka/initKafka: await initKafka(this), {consumer, producer} *)
  initKafka : Logger -> Logger * completion (handle * handle);
  (* web-console/backend/server: await backend(webui, this, this.logger, this.db) *)
  backend : Logger -> option Ledger -> Logger * completion handle
}.

Definition set_consumer (this : SDK Ledger) (c : option handle) : SDK Ledger :=
  {| configs := configs this; logger := logger this; db := db this; consumer := c;
     producer := producer this; webapp := webapp this; scheduled := scheduled this;
     calls := calls this |}.

Definition set_producer (this : SDK Ledger) (p : option handle) : SDK Ledger :=
  {| configs := configs this; logger := logger this; db := db this; consumer := consumer this;
     producer := p; webapp := webapp this; scheduled := scheduled this;
     calls := calls this |}.

Definition set_webapp (this : SDK Ledger) (w : option handle) : SDK Ledger :=
  {| configs := configs this; logger := logger this; db := db this; consumer := consumer this;
     producer := producer this; webapp := w; scheduled := scheduled this;
     calls := calls this |}.

(** Init SDK: the object holds its configs and a fresh logger; every other
    property is undefined. *)
Definition constructor (cfg : Configs) : SDK Ledger :=
  {| configs := cfg; logger := []; db := None; consumer := None; producer := None;
     webapp := None; scheduled := []; calls := [] |}.

Variable lib : Collaborators Ledger.
Variable boot : Boot.

(** [this.db = selectDb(this.configs.db, this.logger)]. *)
Definition call_selectDb : M Ledger unit :=
  fun this =>
    let (l, c) := selectDb boot (logger this) in
    match c with
    | Return ledger => (set_db (set_logger this l) (Some ledger), Return tt)
    | Throw e => (set_logger this l, Throw e)
    end.

(** [const {consumer, producer} = await initKafka(this);
     this.consumer = consumer; this.producer = producer]. *)
Definition call_initKafka : M Ledger unit :=
  fun this =>
    let (l, c) := initKafka boot (logger this) in
    match c with
    | Return (c', p') =>
        (set_producer (set_consumer (set_logger this l) (Some c')) (Some p'), Return tt)
    | Throw e => (set_logger this l, Throw e)
    end.

(** Start the Web Console:
    [this.webapp = await backend(webui, this, this.logger, this.db)]. *)
Definition startWebConsole : M Ledger unit :=
  fun this =>
    let (l, c) := backend boot (logger this) (db this) in
    match c with
    | Return w => (set_webapp (set_logger this l) (Some w), Return tt)
    | Throw e => (set_logger this l, Throw e)
    end.

(** The two messages of [start]. *)
Definition startingMsg (cfg : Configs) : list piece :=
  [Lit "Starting "; Sub (J (JStr (role cfg))); Lit " with id "; Sub (J (JStr (id cfg)));
   Lit "."].

Definition readyMsg (cfg : Configs) : list piece :=
  [Lit "The "; Sub (J (JStr (role cfg))); Lit " with id "; Sub (J (JStr (id cfg)));
   Lit " is ready."].

(** Start peer broker. *)
Definition start : M Ledger started :=
  try_catch
    (cfg <- gets configs ;;
     log LInfo [Text (startingMsg cfg)] ;;
     call_selectDb ;;
     call_initKafka ;;
     (if webui_enabled boot then startWebConsole else ret tt) ;;
     log LInfo [Text (readyMsg cfg)] ;;
     ret ReturnedThis)
    (fun err => call_errors lib err ;; ret ReturnedUndefined).

End Boot.

Arguments Boot : clear implicits.

(** Unfolds [start] and its steps. *)
Ltac run_start :=
  unfold start, call_selectDb, call_initKafka, startWebConsole, call_errors,
    try_catch, bind, gets, lift, log, note, ret, throw in *;
  cbn [logger calls db configs consumer producer webapp scheduled
       set_logger set_calls set_db set_scheduled set_consumer set_producer set_webapp
       fst snd] in *.

(** ** Notions for the further properties *)

(** A call that the ingestion path may make. *)
Definition ingestion_call (c : call) : bool :=
  match c with
  | CallIsValidBlock _ | CallAddBlock _ | CallErrors _ => true
  | _ => false
  end.

(** A call that the proposal path may make. *)
Definition proposal_call (c : call) : bool :=
  match c with
  | CallGenerateNextBlock _ _ | CallSend _ | CallErrors _ => true
  | _ => false
  end.

Definition is_send (c : call) : bool :=
  match c with CallSend _ => true | _ => false end.

Definition is_AddBlock (c : call) : bool :=
  match c with CallAddBlock _ => true | _ => false end.


(** The two objects differ at most by their log, ledger and trace. *)
Definition same_wiring {Ledger : Type} (a b : SDK Ledger) : Prop :=
  configs a = configs b /\ consumer a = consumer b /\ producer a = producer b
  /\ webapp a = webapp b /\ scheduled a = scheduled b.

(** What a method that caught [e] answers, given what [errors] answered. *)
Definition after_errors {A : Type} (c : completion A) : completion value :=
  match c with
  | Return _ => Return Undefined
  | Throw e => Throw e
  end.

(** A deployment for the examples of [start]. *)
Module DemoBoot.

Definition up (console : bool) : Boot Spec.Ledger := {|
  webui_enabled := console;
  selectDb := fun l => (l, Return []);
  initKafka := fun l => (l, Return (Handle, Handle));
  backend := fun l _ => (l, Return Handle)
|}.

(** The broker cannot be reached. *)
Definition kafka_down : Boot Spec.Ledger := {|
  webui_enabled := true;
  selectDb := fun l => (l, Return []);
  initKafka := fun l => (l, Throw (Error (J (JStr "Broker not available"))));
  backend := fun l _ => (l, Return Handle)
|}.

(** [lib/errors] played by a handler that logs and returns. *)
Definition log_and_return (l : Logger) (err : exn) : Logger * completion unit :=
  ((l ++ [Entry LError [Stack err]])%list, Return tt).

Definition lib_quiet : Collaborators Spec.Ledger := {|
  isValidBlock := Demo.checks_on_block;
  generateNextBlock := Demo.next_block;
  AddBlock := Spec.AddBlock;
  send := fun _ => Raises (Error (J (JStr "Broker not available")));
  consumer_close := Returns Undefined (Some (Undefined, Undefined));
  webapp_close := Return tt;
  errors := log_and_return
|}.


(** The validator throws; the store refuses every block; no block can be
    built. *)
Definition lib_broken : Collaborators Spec.Ledger := {|
  isValidBlock := fun l _ => (l, Throw (Error (J (JStr "Malformed block"))));
  generateNextBlock := fun _ _ => Throw (Error (J (JStr "InvalidArgument")));
  AddBlock := fun ledger _ => (ledger, Throw (Error (J (JStr "Storage unavailable"))));
  send := fun _ => Returns Undefined (Some (Undefined, J (JNum 0)));
  consumer_close := Returns Undefined (Some (Undefined, Undefined));
  webapp_close := Return tt;
  errors := Demo.log_and_rethrow
|}.


End DemoBoot.

(* ================================================================== *)
(** * The ingestion path                                               *)
(* ================================================================== *)

#[local] Open Scope list_scope.

Section IngestionFacts.

Context {Ledger : Type} (lib : Collaborators Ledger).








End IngestionFacts.







(* ================================================================== *)
(** * The message handler                                              *)
(* ================================================================== *)

Section DispatchFacts.

Context {Ledger : Type} (lib : Collaborators Ledger) (js : Builtins).

(** What the handler does is decided by the payload first, then the topic,
    then the role. *)
Lemma onMessage_cases (this : SDK Ledger) (topic data : string) :
  onMessage lib js topic data this
  = match deserialize js data with
    | Throw e => (this, Throw e)
    | Return v =>
        if (topic =? pending (topics (kafka (configs this))))%string then
          if hasRole this "peer" then addBlockToLedger lib v this
          else (this, Return (J (JBool false)))
        else (this, Throw (Error (J (JStr "Received message of an invalid topic"))))
    end.
Proof.
  unfold onMessage, bind, gets, lift, ret, throw.
  destruct (deserialize js data) as [v|e]; [|reflexivity].
  destruct (topic =? _)%string; [|reflexivity].
  destruct (hasRole this "peer"); reflexivity.
Qed.

(** [deserialize] throws nothing but the SyntaxError of [JSON.parse]. *)
Lemma deserialize_cases (data : string) :
  deserialize js data
  = match JSON_parse js data with
    | Some v => Return v
    | None => Throw SyntaxError
    end.
Proof. reflexivity. Qed.

(** C3 (as amended).  A node whose role is not peer leaves the object as
    it was on every message of the pending topic: nothing is validated,
    appended or logged.  When [JSON.parse] reads the payload the handler
    answers [false] and throws nothing; when [JSON.parse] throws, the
    handler throws that error. *)
Theorem non_peer_ignores_pending_block (this : SDK Ledger) (topic data : string) :
  topic = pending (topics (kafka (configs this))) ->
  hasRole this "peer" = false ->
  onMessage lib js topic data this
  = (this,
     match JSON_parse js data with
     | Some _ => Return (J (JBool false))
     | None => Throw SyntaxError
     end).
Proof.
  intros -> Hrole. rewrite onMessage_cases, deserialize_cases.
  destruct (JSON_parse js data) as [v|]; [|reflexivity].
  rewrite String.eqb_refl, Hrole. reflexivity.
Qed.

(** C4 (as amended).  On a topic other than the pending one the handler
    throws and leaves the object as it was (nothing is validated or
    appended): the error is the one of the invalid topic when [JSON.parse]
    reads the payload, and the SyntaxError of [JSON.parse] otherwise. *)
Theorem other_topic_raises (this : SDK Ledger) (topic data : string) :
  topic <> pending (topics (kafka (configs this))) ->
  onMessage lib js topic data this
  = (this,
     Throw match JSON_parse js data with
           | Some _ => Error (J (JStr "Received message of an invalid topic"))
           | None => SyntaxError
           end).
Proof.
  intros Htopic. rewrite onMessage_cases, deserialize_cases.
  destruct (JSON_parse js data) as [v|]; [|reflexivity].
  apply String.eqb_neq in Htopic. rewrite Htopic. reflexivity.
Qed.

(** C10.  The payload is parsed before the topic and the role are looked
    at.  When [JSON.parse] throws, the handler throws its SyntaxError on
    any topic and with any role, and does nothing else.  Only when
    [JSON.parse] has read the payload is the topic compared, and only on the
    pending topic is the role tested: a peer hands the value read to the
    ingestion path, another node answers [false], and another topic is an
    error. *)
Theorem payload_is_parsed_first (this : SDK Ledger) (topic data : string) :
  (JSON_parse js data = None ->
   onMessage lib js topic data this = (this, Throw SyntaxError))
  /\ (forall v : json,
        JSON_parse js data = Some v ->
        onMessage lib js topic data this
        = if (topic =? pending (topics (kafka (configs this))))%string then
            if hasRole this "peer" then addBlockToLedger lib v this
            else (this, Return (J (JBool false)))
          else (this, Throw (Error (J (JStr "Received message of an invalid topic"))))).
Proof.
  rewrite onMessage_cases, deserialize_cases. split.
  - intros ->. reflexivity.
  - intros v ->. reflexivity.
Qed.

End DispatchFacts.

(** C3, as the spec words it, fails.  The text made of one opening brace
    is not JSON.  Whatever else [JSON.parse] answers, an orderer handed that
    text on the pending topic throws the SyntaxError. *)
Lemma non_peer_raises_on_malformed_payload :
  hasRole (Demo.node "orderer" []) "peer" = false
  /\ (forall js : Builtins,
        JSON_parse js "{" = None ->
        onMessage Demo.lib js "blocks.pending" "{" (Demo.node "orderer" [])
        = (Demo.node "orderer" [], Throw SyntaxError))
  /\ JSON_parse Demo.js "{" = None.
Proof.
  split; [reflexivity|]. split; [|reflexivity].
  intros js Hparse. rewrite onMessage_cases, deserialize_cases, Hparse. reflexivity.
Qed.

(** The witness of C3: an orderer handed the first block, serialized. *)
Lemma non_peer_witness :
  hasRole (Demo.node "orderer" []) "peer" = false
  /\ JSON_parse Demo.js (serialize Demo.B1) = Some Demo.B1
  /\ onMessage Demo.lib Demo.js "blocks.pending" (serialize Demo.B1) (Demo.node "orderer" [])
     = (Demo.node "orderer" [], Return (J (JBool false))).
Proof.
  split; [reflexivity|]. split; [reflexivity|].
  apply (non_peer_ignores_pending_block Demo.lib Demo.js (Demo.node "orderer" [])
           "blocks.pending" (serialize Demo.B1)); reflexivity.
Defined.

(** C4, as the spec words it, fails.  The text made of one opening brace
    is not JSON.  Whatever else [JSON.parse] answers, that text on an
    unknown topic raises the SyntaxError, not the error of the invalid
    topic. *)
Lemma other_topic_raises_parse_error :
  "other" <> pending (topics (kafka (configs (Demo.node "peer" []))))
  /\ (forall js : Builtins,
        JSON_parse js "{" = None ->
        onMessage Demo.lib js "other" "{" (Demo.node "peer" [])
        = (Demo.node "peer" [], Throw SyntaxError))
  /\ SyntaxError <> Error (J (JStr "Received message of an invalid topic"))
  /\ JSON_parse Demo.js "{" = None.
Proof.
  split; [discriminate|]. split; [|split; [discriminate | reflexivity]].
  intros js Hparse. rewrite onMessage_cases, deserialize_cases, Hparse. reflexivity.
Qed.

(** The witness of C4: the first block, serialized, on an unknown topic. *)
Lemma other_topic_witness :
  "other" <> pending (topics (kafka (configs (Demo.node "peer" []))))
  /\ onMessage Demo.lib Demo.js "other" (serialize Demo.B1) (Demo.node "peer" [])
     = (Demo.node "peer" [],
        Throw (Error (J (JStr "Received message of an invalid topic")))).
Proof.
  split; [discriminate|].
  apply (other_topic_raises Demo.lib Demo.js (Demo.node "peer" []) "other" (serialize Demo.B1)).
  discriminate.
Defined.

(** The witness of C10: a payload that is not JSON, on an unknown topic, at
    a node that is no peer; and the first block, serialized, on the pending
    topic at a peer. *)
Lemma payload_is_parsed_first_witness :
  JSON_parse Demo.js "{" = None
  /\ hasRole (Demo.node "orderer" []) "peer" = false
  /\ "other" <> pending (topics (kafka (configs (Demo.node "orderer" []))))
  /\ onMessage Demo.lib Demo.js "other" "{" (Demo.node "orderer" [])
     = (Demo.node "orderer" [], Throw SyntaxError)
  /\ onMessage Demo.lib Demo.js "blocks.pending" (serialize Demo.B1) (Demo.node "peer" [])
     = addBlockToLedger Demo.lib Demo.B1 (Demo.node "peer" []).
Proof.
  split; [reflexivity|]. split; [reflexivity|]. split; [discriminate|]. split.
  - apply (proj1 (payload_is_parsed_first Demo.lib Demo.js (Demo.node "orderer" []) "other" "{")).
    reflexivity.
  - apply (proj2 (payload_is_parsed_first Demo.lib Demo.js (Demo.node "peer" [])
                    "blocks.pending" (serialize Demo.B1)) Demo.B1).
    reflexivity.
Defined.

(* ================================================================== *)
(** * Shutdown                                                         *)
(* ================================================================== *)

Section ShutdownFacts.

Context {Ledger : Type} (lib : Collaborators Ledger).

(** C8 (as amended).  [shutdown()] closes the web console, when there is
    one, and then asks the consumer to close, and that is all it does.
    When closing the console throws, [shutdown()] throws that error and the
    consumer is not asked to close.  Otherwise, when [consumer.close]
    returns, [shutdown()] completes: the ledger handle, the producer and the
    log are as they were, and so is every callback in flight, none of which
    has been run (the callback of [consumer.close], if the consumer is to
    invoke it, joins them); when [consumer.close] throws, [shutdown()]
    throws that error.  The callback of [consumer.close] does nothing,
    whatever error it is handed. *)
Theorem shutdown_closes_console_then_consumer (this : SDK Ledger) :
  (forall (w : handle) (e : exn),
      webapp this = Some w ->
      webapp_close lib = Throw e ->
      shutdown lib this = (set_calls this (calls this ++ [CallWebappClose]), Throw e))
  /\ (forall (h : handle) (r : value) (later : option (value * value)),
        consumer this = Some h ->
        (webapp this = None \/ webapp_close lib = Return tt) ->
        consumer_close lib = Returns r later ->
        let this' := fst (shutdown lib this) in
        snd (shutdown lib this) = Return tt
        /\ calls this'
           = calls this
             ++ match webapp this with Some _ => [CallWebappClose] | None => [] end
             ++ [CallConsumerClose]
        /\ db this' = db this
        /\ producer this' = producer this
        /\ consumer this' = consumer this
        /\ webapp this' = webapp this
        /\ logger this' = logger this
        /\ scheduled this'
           = scheduled this
             ++ match later with Some (err, res) => [Closed err res] | None => [] end)
  /\ (forall (h : handle) (e : exn),
        consumer this = Some h ->
        (webapp this = None \/ webapp_close lib = Return tt) ->
        consumer_close lib = Raises e ->
        snd (shutdown lib this) = Throw e
        /\ scheduled (fst (shutdown lib this)) = scheduled this)
  /\ (forall (err res : value) (later : SDK Ledger),
        on_closed err res later = (later, Return tt)).
Proof.
  split; [|split; [|split; [|reflexivity]]].
  - intros w e Hw Hclose. run. rewrite Hw. cbn. rewrite Hclose. reflexivity.
  - intros h r later Hconsumer Hweb Hclose. cbn zeta. run. rewrite Hclose.
    destruct (webapp this) as [w|] eqn:Hw.
    + destruct Hweb as [Hweb|Hweb]; [discriminate|]. rewrite Hweb. cbn. rewrite Hconsumer. cbn.
      destruct later as [[err res]|]; cbn; rewrite <- app_assoc, ?List.app_nil_r;
        repeat split; try reflexivity; congruence.
    + cbn. rewrite Hconsumer. cbn.
      destruct later as [[err res]|]; cbn; rewrite ?List.app_nil_r;
        repeat split; try reflexivity; congruence.
  - intros h e Hconsumer Hweb Hclose. run. rewrite Hclose.
    destruct (webapp this) as [w|] eqn:Hw.
    + destruct Hweb as [Hweb|Hweb]; [discriminate|]. rewrite Hweb. cbn. rewrite Hconsumer.
      split; reflexivity.
    + cbn. rewrite Hconsumer. split; reflexivity.
Qed.

(** The callback of [stop] ignores the error it is handed. *)
Lemma on_closed_ignores_error (this : SDK Ledger) (err res : value) :
  on_closed err res this = (this, Return tt).
Proof. reflexivity. Qed.

End ShutdownFacts.

(** C8, as the spec words it, fails: when closing the web console throws,
    [shutdown()] throws in turn, and the consumer is never asked to close;
    and when every call succeeds, the ledger handle and the producer are
    still held. *)
Lemma shutdown_stops_at_failed_console_close :
  shutdown Demo.lib_console_fails (Demo.node "peer" [Demo.B1])
  = (set_calls (Demo.node "peer" [Demo.B1]) [CallWebappClose],
     Throw (Error (J (JStr "Server is not running"))))
  /\ db (fst (shutdown Demo.lib (Demo.node "peer" [Demo.B1]))) = Some [Demo.B1]
  /\ producer (fst (shutdown Demo.lib (Demo.node "peer" [Demo.B1]))) = Some Handle
  /\ calls (fst (shutdown Demo.lib (Demo.node "peer" [Demo.B1])))
     = [CallWebappClose; CallConsumerClose].
Proof. repeat split. Qed.

(** The witness of C8: every collaborator answers, while a publish is in
    flight. *)
Lemma shutdown_witness :
  consumer (Demo.busy_node [Demo.B1]) = Some Handle
  /\ webapp_close Demo.lib = Return tt
  /\ consumer_close Demo.lib = Returns Undefined (Some (Undefined, Undefined))
  /\ snd (shutdown Demo.lib (Demo.busy_node [Demo.B1])) = Return tt
  /\ scheduled (fst (shutdown Demo.lib (Demo.busy_node [Demo.B1])))
     = [Produced Undefined (J (JNum 0)); Closed Undefined Undefined].
Proof.
  split; [reflexivity|]. split; [reflexivity|]. split; [reflexivity|].
  pose proof (proj1 (proj2 (shutdown_closes_console_then_consumer Demo.lib
                              (Demo.busy_node [Demo.B1])))
                Handle Undefined (Some (Undefined, Undefined))
                eq_refl (or_intror eq_refl) eq_refl) as H.
  cbn zeta in H. split; [exact (proj1 H)|].
  exact (proj2 (proj2 (proj2 (proj2 (proj2 (proj2 (proj2 H))))))).
Defined.

(* ================================================================== *)
(** * Proposals                                                        *)
(* ================================================================== *)

(** C7 fails on the code.  The broker reports the failed publish to the
    callback of [__produce], which runs on a later turn of the event loop,
    outside the [try] that was meant to catch it.  So [sendNewBlock] answers
    the hash of the block as if it had been published and logs no error;
    and when the callback runs, its [throw Error(err)] is caught by
    nothing. *)
Theorem publish_failure_escapes_the_handler :
  let this' := fst (sendNewBlock Demo.lib_publish_fails (JNum 42) (Demo.node "peer" [])) in
  snd (sendNewBlock Demo.lib_publish_fails (JNum 42) (Demo.node "peer" []))
  = Return (J (JStr "#orgA42genesis1"))
  /\ no_error_logged (logger this') = true
  /\ calls this'
     = [CallGenerateNextBlock "orgA" "42";
        CallSend [{| msg_topic := "blocks.pending";
                     msg_messages :=
                       serialize
                         (Spec.to_json (Spec.createBlock Demo.digest "orgA" "42" "genesis" 1)) |}]]
  /\ scheduled this' = [Produced (J (JStr "BrokerNotAvailable")) Undefined]
  /\ snd (turn this') = Throw (Error (J (JStr "BrokerNotAvailable"))).
Proof.
  cbn zeta. repeat split.
Qed.

(** A publish that throws before it returns is caught and handed to
    [errors]: [__produce] answers undefined when the handler returns, and
    throws what the handler throws. *)
Lemma synchronous_publish_failure_reaches_errors
    {Ledger : Type} (lib : Collaborators Ledger) (this : SDK Ledger)
    (topic data : string) (h : handle) (e : exn) :
  producer this = Some h ->
  send lib [{| msg_topic := topic; msg_messages := data |}] = Raises e ->
  snd (__produce lib topic data this) = after_errors (snd (errors lib (logger this) e))
  /\ calls (fst (__produce lib topic data this))
     = calls this ++ [CallSend [{| msg_topic := topic; msg_messages := data |}]; CallErrors e].
Proof.
  intros Hp Hsend. run. rewrite Hp. cbn. rewrite Hsend. cbn.
  destruct (errors lib (logger this) e) as [l' []]; cbn; rewrite <- app_assoc; split; reflexivity.
Qed.

(** The same for every deployment: a publish failure reported to the
    callback does not reach the caller of [sendNewBlock], who is answered
    the hash of the block; the callback throws when it is run. *)
Lemma asynchronous_publish_failure
    {Ledger : Type} (lib : Collaborators Ledger) (this : SDK Ledger)
    (data block : json) (h : handle) (r err res : value) :
  generateNextBlock lib (organization (configs this)) (serialize data) = Return block ->
  block <> JNull ->
  producer this = Some h ->
  send lib [{| msg_topic := pending (topics (kafka (configs this)));
               msg_messages := serialize block |}] = Returns r (Some (err, res)) ->
  truthy err = true ->
  snd (sendNewBlock lib data this) = Return (own_hash block)
  /\ scheduled (fst (sendNewBlock lib data this)) = scheduled this ++ [Produced err res]
  /\ forall later : SDK Ledger, on_produced err res later = (later, Throw (Error err)).
Proof.
  intros Hblock Hnull Hp Hsend Herr.
  assert (Hhash : dot_hash block = Return (own_hash block)) by (destruct block; (reflexivity || congruence)).
  run. rewrite Hblock. cbn -[dot_hash own_hash]. rewrite Hhash. cbn -[dot_hash own_hash].
  rewrite Hp. cbn -[dot_hash own_hash]. rewrite Hsend. cbn -[dot_hash own_hash].
  repeat split. intros later. unfold on_produced. rewrite Herr. reflexivity.
Qed.


(* ================================================================== *)
(** * The ledger store and the block codec of the spec                 *)
(* ================================================================== *)

Lemma number_eqb_refl (x : number) : number_eqb x x = true.
Proof.
  destruct x as [|b|b|b s n]; cbn; rewrite ?Bool.eqb_reflx, ?Pos.eqb_refl, ?Z.eqb_refl;
    reflexivity.
Qed.

Lemma json_eqb_refl (v : json) : json_eqb v v = true.
Proof.
  induction v as [|b|z|s|items IH|members IH] using json_ind; cbn [json_eqb].
  - reflexivity.
  - now destruct b.
  - apply number_eqb_refl.
  - apply String.eqb_refl.
  - induction IH as [|x items Hx _ IHitems]; [reflexivity|]. now rewrite Hx, IHitems.
  - induction IH as [|[k x] members Hx _ IHmembers]; [reflexivity|].
    cbn [snd] in Hx. now rewrite String.eqb_refl, Hx, IHmembers.
Qed.

Lemma same_hash_refl (block : json) : Spec.same_hash block block = true.
Proof.
  unfold Spec.same_hash, Spec.same_value. destruct (own_hash block); [reflexivity|].
  apply json_eqb_refl.
Qed.

Lemma present_app (ledger : Spec.Ledger) (block : json) :
  Spec.present (ledger ++ [block]) block = true.
Proof.
  unfold Spec.present. rewrite existsb_app. cbn [existsb].
  rewrite same_hash_refl. now rewrite orb_true_r.
Qed.

Lemma absent_copies (ledger : Spec.Ledger) (block : json) :
  Spec.present ledger block = false -> Spec.copies ledger block = 0.
Proof.
  unfold Spec.present, Spec.copies. induction ledger as [|b ledger IH]; [reflexivity|].
  cbn [existsb filter]. intros [Hb Hl]%orb_false_elim. rewrite Hb. auto.
Qed.

Lemma append_twice (ledger : Spec.Ledger) (block : json) :
  Spec.append (fst (Spec.append ledger block)) block
  = (fst (Spec.append ledger block), Spec.AlreadyPresent).
Proof.
  unfold Spec.append at 2 3. destruct (Spec.present ledger block) eqn:Hp; cbn [fst].
  - unfold Spec.append. now rewrite Hp.
  - unfold Spec.append. now rewrite present_app.
Qed.

(** C5.  Appending a block that the ledger does not hold yields Appended
    and a ledger with one copy of it; appending it again yields
    AlreadyPresent and the same ledger.  In general an append of a block
    whose hash the ledger holds is a no-op that yields AlreadyPresent. *)
Theorem append_is_idempotent (ledger : Spec.Ledger) (block : json) :
  Spec.append (fst (Spec.append ledger block)) block
  = (fst (Spec.append ledger block), Spec.AlreadyPresent)
  /\ (if Spec.present ledger block
      then Spec.append ledger block = (ledger, Spec.AlreadyPresent)
      else Spec.append ledger block = (ledger ++ [block], Spec.Appended)
           /\ Spec.copies (ledger ++ [block]) block = 1).
Proof.
  split; [apply append_twice|].
  destruct (Spec.present ledger block) eqn:Hp; unfold Spec.append; rewrite Hp; [reflexivity|].
  split; [reflexivity|]. unfold Spec.copies. rewrite filter_app, length_app.
  change (List.length (filter (Spec.same_hash block) ledger)) with (Spec.copies ledger block).
  rewrite (absent_copies ledger block Hp). cbn [filter]. now rewrite same_hash_refl.
Qed.

(** On the code: a block that the validator accepts, delivered twice to a
    peer whose store is the one of the spec, is answered with its hash both
    times, and the second delivery leaves the ledger as the first one made
    it. *)
Lemma redelivery_is_a_no_op
    (lib : Collaborators Spec.Ledger) (this : SDK Spec.Ledger) (data : json)
    (ledger : Spec.Ledger) :
  AddBlock lib = Spec.AddBlock ->
  (forall l, isValidBlock lib l data = (l, Return true)) ->
  data <> JNull ->
  db this = Some ledger ->
  let first := addBlockToLedger lib data this in
  let second := addBlockToLedger lib data (fst first) in
  snd first = Return (own_hash data)
  /\ snd second = Return (own_hash data)
  /\ db (fst first) = Some (fst (Spec.append ledger data))
  /\ db (fst second) = db (fst first).
Proof.
  intros Hadd Hvalid Hnull Hdb.
  assert (Hhash : dot_hash data = Return (own_hash data))
    by (destruct data; (reflexivity || congruence)).
  assert (Hrun : forall (that : SDK Spec.Ledger) (l : Spec.Ledger),
             db that = Some l ->
             snd (addBlockToLedger lib data that) = Return (own_hash data)
             /\ db (fst (addBlockToLedger lib data that)) = Some (fst (Spec.append l data))).
  { intros that l Hthat. run. rewrite Hvalid. cbn -[dot_hash own_hash Spec.append].
    rewrite Hhash, Hthat. cbn -[dot_hash own_hash Spec.append]. rewrite Hadd.
    unfold Spec.AddBlock. cbn -[dot_hash own_hash Spec.append]. split; reflexivity. }
  cbn zeta. destruct (Hrun this ledger Hdb) as [Hr1 Hdb1].
  destruct (Hrun _ _ Hdb1) as [Hr2 Hdb2].
  rewrite Hr1, Hr2, Hdb2, Hdb1. rewrite append_twice. repeat split; reflexivity.
Qed.


(* ================================================================== *)
(** * Further properties of the class                                  *)
(* ================================================================== *)

Section ClassFacts.

Context {Ledger : Type} (lib : Collaborators Ledger).




End ClassFacts.




(* ================================================================== *)
(** * The ingestion path: failures and what it never does              *)
(* ================================================================== *)

Section IngestionEdges.

Context {Ledger : Type} (lib : Collaborators Ledger).

(** A trace that grew is not the trace it grew from. *)
Lemma trace_grew (cs ext : list call) (c : call) : cs ++ c :: ext <> cs.
Proof.
  intros H. apply (f_equal (@List.length call)) in H.
  rewrite length_app in H. cbn in H. lia.
Qed.


(** Every run of the ingestion path, whatever the collaborators answer:
    the validator is called first, the store at most once, and nothing but
    the log, the ledger and the trace changes. *)
Lemma addBlockToLedger_frame (this : SDK Ledger) (data : json) :
  same_wiring (fst (addBlockToLedger lib data this)) this
  /\ exists ext,
       calls (fst (addBlockToLedger lib data this))
       = calls this ++ CallIsValidBlock data :: ext
       /\ forallb ingestion_call ext = true
       /\ List.length (filter is_AddBlock ext) <= 1.
Proof.
  unfold same_wiring. run.
  destruct (isValidBlock lib (logger this) data) as [l' [[|]|e]]; cbn [negb].
  - destruct data; cbn [dot_hash];
      try (destruct (errors lib _ _) as [? []]; cbn; repeat split;
           eexists; (split; [rewrite <- app_assoc; reflexivity | split; [reflexivity | cbn; lia]]));
      (destruct (db this); cbn;
       [destruct (AddBlock lib _ _) as [? []]; cbn|];
       try (destruct (errors lib _ _) as [? []]; cbn); repeat split;
       eexists; (split; [rewrite <- ?app_assoc; reflexivity | split; [reflexivity | cbn; lia]])).
  - cbn. repeat split. exists []. repeat split. cbn. lia.
  - destruct (errors lib _ _) as [? []]; cbn; repeat split;
      eexists; (split; [rewrite <- app_assoc; reflexivity | split; [reflexivity | cbn; lia]]).
Qed.

(** X4.  Whatever the validator, the store and the error handler answer,
    the ingestion path leaves the configs, the consumer, the producer, the
    web console and the callbacks in flight as they were; it calls no
    collaborator but the validator, the store and the error handler, the
    validator first and the store at most once: it never publishes. *)
Theorem ingestion_keeps_the_wiring (this : SDK Ledger) (data : json) :
  same_wiring (fst (addBlockToLedger lib data this)) this
  /\ exists ext,
       calls (fst (addBlockToLedger lib data this))
       = calls this ++ CallIsValidBlock data :: ext
       /\ forallb ingestion_call ext = true
       /\ List.length (filter is_AddBlock ext) <= 1.
Proof. exact (addBlockToLedger_frame this data). Qed.

(** X5.  When the validator throws, the error is handed to [errors] with
    the log as the validator left it; the store is not called, the ledger
    is what it was, and the call answers undefined or throws as the handler
    returns or throws. *)
Theorem validator_failure_is_handed_to_errors
    (this : SDK Ledger) (data : json) (l' : Logger) (e : exn) :
  isValidBlock lib (logger this) data = (l', Throw e) ->
  let this' := fst (addBlockToLedger lib data this) in
  snd (addBlockToLedger lib data this) = after_errors (snd (errors lib l' e))
  /\ logger this' = fst (errors lib l' e)
  /\ calls this' = calls this ++ [CallIsValidBlock data; CallErrors e]
  /\ db this' = db this.
Proof.
  intros Hv. cbn zeta. run. rewrite Hv. cbn -[dot_hash own_hash].
  destruct (errors lib l' e) as [l'' []]; cbn; rewrite <- app_assoc; repeat split.
Qed.



(** X8.  The payload [null] is never stored, whatever the validator says:
    judged invalid it is skipped, and judged valid the read of its hash
    throws before the store is reached. *)
Theorem null_block_is_never_stored (this : SDK Ledger) :
  db (fst (addBlockToLedger lib JNull this)) = db this
  /\ exists ext,
       calls (fst (addBlockToLedger lib JNull this)) = calls this ++ ext
       /\ existsb is_AddBlock ext = false.
Proof.
  run. destruct (isValidBlock lib (logger this) JNull) as [l' [[|]|e]]; cbn.
  - destruct (errors lib _ _) as [? []]; cbn; split; try reflexivity;
      eexists; (split; [rewrite <- app_assoc; reflexivity | reflexivity]).
  - split; [reflexivity|]. eexists; split; reflexivity.
  - destruct (errors lib _ _) as [? []]; cbn; split; try reflexivity;
      eexists; (split; [rewrite <- app_assoc; reflexivity | reflexivity]).
Qed.

(** X9.  The handler reaches a collaborator exactly when [JSON.parse]
    reads the payload, the topic is the pending one and the role is peer. *)
Theorem validation_exactly_for_peers_on_pending
    (js : Builtins) (this : SDK Ledger) (topic data : string) :
  calls (fst (onMessage lib js topic data this)) <> calls this
  <-> (exists v, JSON_parse js data = Some v)
      /\ topic = pending (topics (kafka (configs this)))
      /\ hasRole this "peer" = true.
Proof.
  rewrite onMessage_cases, deserialize_cases. destruct (JSON_parse js data) as [v|].
  - destruct (String.eqb_spec topic (pending (topics (kafka (configs this))))) as [Ht|Ht].
    + destruct (hasRole this "peer") eqn:Hrole.
      * split; [intros _; repeat split; eauto|]. intros _.
        destruct (addBlockToLedger_frame this v) as [_ (ext & -> & _)]. apply trace_grew.
      * cbn. split; [congruence | intros (_ & _ & H); discriminate].
    + cbn. split; [congruence | intros (_ & H & _); contradiction].
  - cbn. split; [congruence | intros ([v H] & _); discriminate].
Qed.

End IngestionEdges.

(** The witness of X5: a validator that throws, and a handler that
    rethrows. *)
Lemma validator_failure_witness :
  isValidBlock DemoBoot.lib_broken (logger (Demo.node "peer" [Demo.B1])) Demo.B2
  = ([], Throw (Error (J (JStr "Malformed block"))))
  /\ snd (addBlockToLedger DemoBoot.lib_broken Demo.B2 (Demo.node "peer" [Demo.B1]))
     = Throw (Error (J (JStr "Malformed block")))
  /\ db (fst (addBlockToLedger DemoBoot.lib_broken Demo.B2 (Demo.node "peer" [Demo.B1])))
     = Some [Demo.B1].
Proof.
  split; [reflexivity|].
  pose proof (validator_failure_is_handed_to_errors DemoBoot.lib_broken
                (Demo.node "peer" [Demo.B1]) Demo.B2 []
                (Error (J (JStr "Malformed block"))) eq_refl) as H.
  split; [exact (proj1 H) | exact (proj2 (proj2 (proj2 H)))].
Defined.



(* ================================================================== *)
(** * The proposal path: failures and what it never does               *)
(* ================================================================== *)

Section ProposalEdges.

Context {Ledger : Type} (lib : Collaborators Ledger).


(** Every run of the proposal path, whatever the collaborators answer. *)
Lemma sendNewBlock_frame (this : SDK Ledger) (data : json) :
  let this' := fst (sendNewBlock lib data this) in
  db this' = db this
  /\ configs this' = configs this
  /\ consumer this' = consumer this
  /\ producer this' = producer this
  /\ webapp this' = webapp this
  /\ exists ext,
       calls this'
       = calls this
         ++ CallGenerateNextBlock (organization (configs this)) (serialize data) :: ext
       /\ forallb proposal_call ext = true
       /\ List.length (filter is_send ext) <= 1.
Proof.
  cbn zeta. run.
  destruct (generateNextBlock lib _ _) as [block|e]; cbn -[dot_hash own_hash].
  - destruct block; cbn [dot_hash];
      try (destruct (errors lib _ _) as [? []]; cbn; repeat split;
           eexists; (split; [rewrite <- ?app_assoc; reflexivity | split; [reflexivity | cbn; lia]]));
      (cbn; destruct (producer this) eqn:Hp; cbn;
       [destruct (send lib _) as [e|r [[err res]|]]; cbn|];
       try (destruct (errors lib _ _) as [? []]; cbn);
       try (destruct (errors lib _ _) as [? []]; cbn);
       repeat split; try congruence;
       eexists; (split; [rewrite <- ?app_assoc; reflexivity | split; [reflexivity | cbn; lia]])).
  - destruct (errors lib _ _) as [? []]; cbn; repeat split;
      eexists; (split; [rewrite <- ?app_assoc; reflexivity | split; [reflexivity | cbn; lia]]).
Qed.

(** X10.  Whatever the collaborators answer, the proposal path never
    touches the ledger: [this.db] is what it was, the validator and the
    store are not called, the block is built first and published at most
    once; the configs and the three handles are what they were. *)
Theorem proposal_never_touches_the_ledger (this : SDK Ledger) (data : json) :
  let this' := fst (sendNewBlock lib data this) in
  db this' = db this
  /\ configs this' = configs this
  /\ consumer this' = consumer this
  /\ producer this' = producer this
  /\ webapp this' = webapp this
  /\ exists ext,
       calls this'
       = calls this
         ++ CallGenerateNextBlock (organization (configs this)) (serialize data) :: ext
       /\ forallb proposal_call ext = true
       /\ List.length (filter is_send ext) <= 1.
Proof. exact (sendNewBlock_frame this data). Qed.

(** X11.  When the block cannot be built, nothing is published and no
    callback is left in flight: the error is handed to [errors] once, with
    the log untouched, and the call answers undefined or throws as the
    handler returns or throws. *)
Theorem failed_block_creation_publishes_nothing (this : SDK Ledger) (data : json) (e : exn) :
  generateNextBlock lib (organization (configs this)) (serialize data) = Throw e ->
  let this' := fst (sendNewBlock lib data this) in
  snd (sendNewBlock lib data this) = after_errors (snd (errors lib (logger this) e))
  /\ calls this'
     = calls this
       ++ [CallGenerateNextBlock (organization (configs this)) (serialize data);
           CallErrors e]
  /\ scheduled this' = scheduled this
  /\ logger this' = fst (errors lib (logger this) e).
Proof.
  intros Hgen. cbn zeta. run. rewrite Hgen. cbn.
  destruct (errors lib (logger this) e) as [l' []]; cbn; rewrite <- app_assoc; repeat split.
Qed.




End ProposalEdges.

(** The witness of X11: no block can be built. *)
Lemma failed_block_creation_witness :
  generateNextBlock DemoBoot.lib_broken "orgA" (serialize (JNum 42))
  = Throw (Error (J (JStr "InvalidArgument")))
  /\ snd (sendNewBlock DemoBoot.lib_broken (JNum 42) (Demo.node "peer" []))
     = Throw (Error (J (JStr "InvalidArgument")))
  /\ scheduled (fst (sendNewBlock DemoBoot.lib_broken (JNum 42) (Demo.node "peer" []))) = [].
Proof.
  split; [reflexivity|].
  pose proof (failed_block_creation_publishes_nothing DemoBoot.lib_broken
                (Demo.node "peer" []) (JNum 42) (Error (J (JStr "InvalidArgument")))
                eq_refl) as H.
  split; [exact (proj1 H) | exact (proj1 (proj2 (proj2 H)))].
Defined.





(* ================================================================== *)
(** * Shutdown and start                                               *)
(* ================================================================== *)

Section LifecycleFacts.

Context {Ledger : Type} (lib : Collaborators Ledger).

(** What [shutdown()] leaves when both closes return. *)
Lemma shutdown_runs
    (this : SDK Ledger) (h : handle) (r : value) (later : option (value * value)) :
  consumer this = Some h ->
  (webapp this = None \/ webapp_close lib = Return tt) ->
  consumer_close lib = Returns r later ->
  shutdown lib this
  = (set_scheduled
       (set_calls this
          (calls this
           ++ match webapp this with Some _ => [CallWebappClose] | None => [] end
           ++ [CallConsumerClose]))
       (scheduled this
        ++ match later with Some (err, res) => [Closed err res] | None => [] end),
     Return tt).
Proof.
  intros Hconsumer Hweb Hclose. run. rewrite Hclose.
  destruct (webapp this) as [w|] eqn:Hw.
  - destruct Hweb as [Hweb|Hweb]; [discriminate|]. rewrite Hweb. cbn. rewrite Hconsumer. cbn.
    destruct later as [[err res]|]; cbn; rewrite <- app_assoc; unfold set_scheduled, set_calls;
      cbn; rewrite ?List.app_nil_r; rewrite ?Hw; destruct this; reflexivity.
  - cbn. rewrite Hconsumer. cbn.
    destruct later as [[err res]|]; cbn; unfold set_scheduled, set_calls;
      cbn; rewrite ?List.app_nil_r; rewrite ?Hw; destruct this; reflexivity.
Qed.

(** What [shutdown()] leaves when there is no consumer. *)
Lemma shutdown_halts (this : SDK Ledger) :
  consumer this = None ->
  (webapp this = None \/ webapp_close lib = Return tt) ->
  shutdown lib this
  = (set_calls this
       (calls this ++ match webapp this with Some _ => [CallWebappClose] | None => [] end),
     Throw (TypeError "Cannot read property close of undefined")).
Proof.
  intros Hconsumer Hweb. run.
  destruct (webapp this) as [w|] eqn:Hw.
  - destruct Hweb as [Hweb|Hweb]; [discriminate|]. rewrite Hweb. cbn. rewrite Hconsumer.
    reflexivity.
  - cbn. rewrite Hconsumer. cbn. rewrite List.app_nil_r. unfold set_calls.
    destruct this; reflexivity.
Qed.

(** X15.  On an object that has no consumer, [shutdown()] first closes the
    web console, when there is one, and then throws a TypeError on the read
    of [this.consumer.close]: the console is closed and the call fails. *)
Theorem shutdown_without_consumer (this : SDK Ledger) :
  consumer this = None ->
  (webapp this = None \/ webapp_close lib = Return tt) ->
  let this' := fst (shutdown lib this) in
  snd (shutdown lib this) = Throw (TypeError "Cannot read property close of undefined")
  /\ calls this'
     = calls this ++ match webapp this with Some _ => [CallWebappClose] | None => [] end
  /\ scheduled this' = scheduled this.
Proof.
  intros Hconsumer Hweb. cbn zeta. rewrite (shutdown_halts this Hconsumer Hweb).
  repeat split.
Qed.

(** X16.  [shutdown()] clears nothing: the object keeps its handles, so a
    second call closes the web console and the consumer once more. *)
Theorem second_shutdown_closes_again
    (this : SDK Ledger) (h w : handle) (r : value) (later : option (value * value)) :
  consumer this = Some h ->
  webapp this = Some w ->
  webapp_close lib = Return tt ->
  consumer_close lib = Returns r later ->
  let once := fst (shutdown lib this) in
  consumer once = Some h
  /\ webapp once = Some w
  /\ snd (shutdown lib once) = Return tt
  /\ calls (fst (shutdown lib once))
     = calls this
       ++ [CallWebappClose; CallConsumerClose; CallWebappClose; CallConsumerClose].
Proof.
  intros Hconsumer Hweb Hwclose Hcclose. cbn zeta.
  rewrite (shutdown_runs this h r later Hconsumer (or_intror Hwclose) Hcclose).
  cbn [fst]. rewrite (shutdown_runs _ h r later); cbn [consumer webapp set_scheduled set_calls];
    [| assumption | right; assumption | assumption].
  cbn [fst snd calls consumer webapp set_scheduled set_calls]. rewrite Hweb.
  rewrite <- !app_assoc. repeat split; assumption.
Qed.

Variable boot : Boot Ledger.

(** The object that a successful [start()] leaves. *)
Lemma start_succeeds
    (this : SDK Ledger) (ledger : Ledger) (c p w : handle) (l1 l2 l3 : Logger) :
  selectDb boot (logger this ++ [Entry LInfo [Text (startingMsg (configs this))]])
  = (l1, Return ledger) ->
  initKafka boot l1 = (l2, Return (c, p)) ->
  (if webui_enabled boot then backend boot l2 (Some ledger) = (l3, Return w) else l3 = l2) ->
  start lib boot this
  = ({| configs := configs this;
        logger := l3 ++ [Entry LInfo [Text (readyMsg (configs this))]];
        db := Some ledger;
        consumer := Some c;
        producer := Some p;
        webapp := if webui_enabled boot then Some w else webapp this;
        scheduled := scheduled this;
        calls := calls this |},
     Return ReturnedThis).
Proof.
  intros Hdb Hkafka Hweb. run_start. rewrite Hdb. cbn. rewrite Hkafka. cbn.
  destruct (webui_enabled boot); cbn.
  - rewrite Hweb. reflexivity.
  - subst l3. reflexivity.
Qed.

(** The object that [start()] leaves when the broker fails. *)
Lemma start_fails_at_the_broker
    (this : SDK Ledger) (ledger : Ledger) (l1 l2 : Logger) (e : exn) :
  selectDb boot (logger this ++ [Entry LInfo [Text (startingMsg (configs this))]])
  = (l1, Return ledger) ->
  initKafka boot l1 = (l2, Throw e) ->
  start lib boot this
  = ({| configs := configs this;
        logger := fst (errors lib l2 e);
        db := Some ledger;
        consumer := consumer this;
        producer := producer this;
        webapp := webapp this;
        scheduled := scheduled this;
        calls := calls this ++ [CallErrors e] |},
     match snd (errors lib l2 e) with
     | Return _ => Return ReturnedUndefined
     | Throw e' => Throw e'
     end).
Proof.
  intros Hdb Hkafka. run_start. rewrite Hdb. cbn. rewrite Hkafka. cbn.
  destruct (errors lib l2 e) as [l3 []]; reflexivity.
Qed.

(** X17.  When the database, the broker and (if enabled) the web console
    come up, [start()] answers [this] with the ledger, the consumer and the
    producer set; the web console is set exactly when it is enabled; the
    first entry logged is the starting message and the last the ready
    message; no collaborator of the other methods is called. *)
Theorem start_wires_the_node
    (this : SDK Ledger) (ledger : Ledger) (c p w : handle) (l1 l2 l3 : Logger) :
  selectDb boot (logger this ++ [Entry LInfo [Text (startingMsg (configs this))]])
  = (l1, Return ledger) ->
  initKafka boot l1 = (l2, Return (c, p)) ->
  (if webui_enabled boot then backend boot l2 (Some ledger) = (l3, Return w) else l3 = l2) ->
  let this' := fst (start lib boot this) in
  snd (start lib boot this) = Return ReturnedThis
  /\ db this' = Some ledger
  /\ consumer this' = Some c
  /\ producer this' = Some p
  /\ webapp this' = (if webui_enabled boot then Some w else webapp this)
  /\ logger this' = l3 ++ [Entry LInfo [Text (readyMsg (configs this))]]
  /\ calls this' = calls this.
Proof.
  intros Hdb Hkafka Hweb. cbn zeta.
  rewrite (start_succeeds this ledger c p w l1 l2 l3 Hdb Hkafka Hweb). repeat split.
Qed.

(** X18.  [start()] is not all-or-nothing: when the broker fails after the
    database came up, the error is handed to [errors], the ledger stays
    set, the consumer, the producer and the web console stay as they were,
    and the ready message is not logged by [start()]. *)
Theorem failed_broker_leaves_the_ledger_set
    (this : SDK Ledger) (ledger : Ledger) (l1 l2 : Logger) (e : exn) :
  selectDb boot (logger this ++ [Entry LInfo [Text (startingMsg (configs this))]])
  = (l1, Return ledger) ->
  initKafka boot l1 = (l2, Throw e) ->
  let this' := fst (start lib boot this) in
  snd (start lib boot this)
  = match snd (errors lib l2 e) with
    | Return _ => Return ReturnedUndefined
    | Throw e' => Throw e'
    end
  /\ db this' = Some ledger
  /\ consumer this' = consumer this
  /\ producer this' = producer this
  /\ webapp this' = webapp this
  /\ logger this' = fst (errors lib l2 e)
  /\ calls this' = calls this ++ [CallErrors e].
Proof.
  intros Hdb Hkafka. cbn zeta.
  rewrite (start_fails_at_the_broker this ledger l1 l2 e Hdb Hkafka). repeat split.
Qed.

(** X19.  After a [start()] that failed at the broker, on an object fresh
    from the constructor, [shutdown()] throws a TypeError and closes
    nothing: neither the web console nor the consumer is there. *)
Theorem shutdown_after_failed_start
    (cfg : Configs) (ledger : Ledger) (l1 l2 : Logger) (e : exn) :
  selectDb boot [Entry LInfo [Text (startingMsg cfg)]] = (l1, Return ledger) ->
  initKafka boot l1 = (l2, Throw e) ->
  let failed := fst (start lib boot (constructor cfg)) in
  snd (shutdown lib failed) = Throw (TypeError "Cannot read property close of undefined")
  /\ calls (fst (shutdown lib failed)) = [CallErrors e]
  /\ db (fst (shutdown lib failed)) = Some ledger.
Proof.
  intros Hdb Hkafka. cbn zeta.
  rewrite (start_fails_at_the_broker (constructor cfg) ledger l1 l2 e Hdb Hkafka).
  cbn [fst]. rewrite shutdown_halts; [| reflexivity | left; reflexivity].
  repeat split.
Qed.

(** X20.  A node started from the constructor and then shut down closes
    the consumer, and closes the web console exactly when it was enabled;
    the ledger that [start()] opened is still set afterwards. *)
Theorem start_then_shutdown
    (cfg : Configs) (ledger : Ledger) (c p w : handle) (l1 l2 l3 : Logger)
    (r : value) (later : option (value * value)) :
  selectDb boot [Entry LInfo [Text (startingMsg cfg)]] = (l1, Return ledger) ->
  initKafka boot l1 = (l2, Return (c, p)) ->
  (if webui_enabled boot then backend boot l2 (Some ledger) = (l3, Return w) else l3 = l2) ->
  webapp_close lib = Return tt ->
  consumer_close lib = Returns r later ->
  let up := fst (start lib boot (constructor cfg)) in
  snd (shutdown lib up) = Return tt
  /\ calls (fst (shutdown lib up))
     = (if webui_enabled boot then [CallWebappClose] else []) ++ [CallConsumerClose]
  /\ db (fst (shutdown lib up)) = Some ledger
  /\ producer (fst (shutdown lib up)) = Some p.
Proof.
  intros Hdb Hkafka Hweb Hwclose Hcclose. cbn zeta.
  rewrite (start_succeeds (constructor cfg) ledger c p w l1 l2 l3 Hdb Hkafka Hweb).
  cbn [fst]. rewrite (shutdown_runs _ c r later);
    [| reflexivity | right; assumption | assumption].
  cbn [fst snd calls db producer webapp set_scheduled set_calls constructor].
  destruct (webui_enabled boot); repeat split.
Qed.

End LifecycleFacts.

(** The witness of X15: an object fresh from the constructor. *)
Lemma shutdown_without_consumer_witness :
  consumer (constructor (Ledger := Spec.Ledger) (Demo.configs_of "peer")) = None
  /\ snd (shutdown Demo.lib (constructor (Demo.configs_of "peer")))
     = Throw (TypeError "Cannot read property close of undefined").
Proof.
  split; [reflexivity|].
  exact (proj1 (shutdown_without_consumer Demo.lib (constructor (Demo.configs_of "peer"))
                  eq_refl (or_introl eq_refl))).
Defined.

(** The witness of X16: a started peer, shut down twice. *)
Lemma second_shutdown_witness :
  webapp_close Demo.lib = Return tt
  /\ calls (fst (shutdown Demo.lib (fst (shutdown Demo.lib (Demo.node "peer" [])))))
     = [CallWebappClose; CallConsumerClose; CallWebappClose; CallConsumerClose].
Proof.
  split; [reflexivity|].
  exact (proj2 (proj2 (proj2
           (second_shutdown_closes_again Demo.lib (Demo.node "peer" []) Handle Handle
              Undefined (Some (Undefined, Undefined)) eq_refl eq_refl eq_refl eq_refl)))).
Defined.

(** The witness of X17: a peer with its web console. *)
Lemma start_witness :
  initKafka (DemoBoot.up true) [Entry LInfo [Text (startingMsg (Demo.configs_of "peer"))]]
  = ([Entry LInfo [Text (startingMsg (Demo.configs_of "peer"))]], Return (Handle, Handle))
  /\ snd (start Demo.lib (DemoBoot.up true) (constructor (Demo.configs_of "peer")))
     = Return ReturnedThis
  /\ db (fst (start Demo.lib (DemoBoot.up true) (constructor (Demo.configs_of "peer"))))
     = Some [].
Proof.
  split; [reflexivity|].
  pose proof (start_wires_the_node Demo.lib (DemoBoot.up true)
                (constructor (Demo.configs_of "peer")) [] Handle Handle Handle _ _ _
                eq_refl eq_refl eq_refl) as H.
  split; [exact (proj1 H) | exact (proj1 (proj2 H))].
Defined.

(** The witness of X18: the broker cannot be reached. *)
Lemma failed_broker_witness :
  initKafka DemoBoot.kafka_down [Entry LInfo [Text (startingMsg (Demo.configs_of "peer"))]]
  = ([Entry LInfo [Text (startingMsg (Demo.configs_of "peer"))]],
     Throw (Error (J (JStr "Broker not available"))))
  /\ snd (start DemoBoot.lib_quiet DemoBoot.kafka_down (constructor (Demo.configs_of "peer")))
     = Return ReturnedUndefined
  /\ db (fst (start DemoBoot.lib_quiet DemoBoot.kafka_down
                (constructor (Demo.configs_of "peer"))))
     = Some [].
Proof.
  split; [reflexivity|].
  pose proof (failed_broker_leaves_the_ledger_set DemoBoot.lib_quiet DemoBoot.kafka_down
                (constructor (Demo.configs_of "peer")) [] _ _
                (Error (J (JStr "Broker not available"))) eq_refl eq_refl) as H.
  split; [exact (proj1 H) | exact (proj1 (proj2 H))].
Defined.

(** The witness of X19: the broker cannot be reached, then the node is
    shut down. *)
Lemma shutdown_after_failed_start_witness :
  selectDb DemoBoot.kafka_down [Entry LInfo [Text (startingMsg (Demo.configs_of "peer"))]]
  = ([Entry LInfo [Text (startingMsg (Demo.configs_of "peer"))]], Return [])
  /\ snd (shutdown DemoBoot.lib_quiet
            (fst (start DemoBoot.lib_quiet DemoBoot.kafka_down
                    (constructor (Demo.configs_of "peer")))))
     = Throw (TypeError "Cannot read property close of undefined").
Proof.
  split; [reflexivity|].
  exact (proj1 (shutdown_after_failed_start DemoBoot.lib_quiet DemoBoot.kafka_down
                  (Demo.configs_of "peer") [] _ _
                  (Error (J (JStr "Broker not available"))) eq_refl eq_refl)).
Defined.

(** The witness of X20: a peer without web console, started and shut
    down. *)
Lemma start_then_shutdown_witness :
  webui_enabled (DemoBoot.up false) = false
  /\ calls (fst (shutdown Demo.lib
                   (fst (start Demo.lib (DemoBoot.up false)
                           (constructor (Demo.configs_of "peer"))))))
     = [CallConsumerClose].
Proof.
  split; [reflexivity|].
  exact (proj1 (proj2
           (start_then_shutdown Demo.lib (DemoBoot.up false) (Demo.configs_of "peer")
              [] Handle Handle Handle _ _ _ Undefined (Some (Undefined, Undefined))
              eq_refl eq_refl eq_refl eq_refl eq_refl))).
Defined.
